(** * Cog shell and Dinghy launcher: a shallow embedding

    Two C translation units are embedded here:
    - [core/cog-shell.c], the shell object that owns the engine's settings,
      context and view and keeps the table of URI scheme request handlers
      (module [CogShell]);
    - [dinghy.c], the launcher binary's handling of its local command line
      options (module [Dinghy]).

    GLib, GObject, GIO and WebKit are external libraries.  Their objects are
    represented by identities (a [positive] per instance, [option] for a
    nullable pointer), their observable calls by logs kept in the state, and
    the functions whose result depends on the process environment (program
    name, environment variables, file system, locale) by the fields of an
    environment record. *)

From Stdlib Require Import ZArith Ascii String.
From stdpp Require Import base option list strings gmap fin_maps.

(** * core/cog-shell.c *)
Module CogShell.

(** What the shell reads from the process: [g_get_prgname],
    [g_get_user_data_dir], [g_get_user_cache_dir], and [g_build_filename]
    applied to the path elements it was given before the terminating NULL. *)
Record Env := {
  g_get_prgname : option string;
  g_get_user_data_dir : string;
  g_get_user_cache_dir : string;
  g_build_filename : list string → string;
}.

(** A C variadic call [f (a, b, ..., NULL)] sees the arguments that come
    before the first NULL. *)
Fixpoint until_null (args : list (option string)) : list string :=
  match args with
  | Some a :: rest => a :: until_null rest
  | _ => []
  end.

(** A [WebKitWebView] instance: its identity and the settings and context it
    was built with. *)
Record WebKitWebView := {
  view_id : positive;
  view_settings : option positive;
  view_context : option positive;
}.

(** [typedef struct { CogRequestHandler *handler; gboolean registered; }
    RequestHandlerMapEntry] *)
Record RequestHandlerMapEntry := {
  handler : positive;
  registered : bool;
}.

(** [CogShellPrivate]; [config_file] and [device_scale_factor] play no part
    in the functions embedded below and are left out. *)
Record CogShellPrivate := {
  name : option string;
  web_settings : option positive;
  web_context : option positive;
  web_view : option WebKitWebView;
  request_handlers : option (gmap string RequestHandlerMapEntry);
}.

(** The shell together with the part of the engine it talks to. *)
Record World := {
  priv : CogShellPrivate;
  (** next free object identity *)
  next_object : positive;
  (** context ↦ (base-data-directory, base-cache-directory) of its website
      data manager *)
  website_data : gmap positive (string * string);
  (** calls of [webkit_web_context_register_uri_scheme (context, scheme, ..)],
      oldest first *)
  uri_scheme_calls : list (positive * string);
  (** properties notified with [g_object_notify_by_pspec], oldest first *)
  notifications : list string;
}.

Definition with_priv (w : World) (p : CogShellPrivate) : World :=
  {| priv := p; next_object := next_object w; website_data := website_data w;
     uri_scheme_calls := uri_scheme_calls w; notifications := notifications w |}.

Definition with_name (p : CogShellPrivate) (n : option string) : CogShellPrivate :=
  {| name := n; web_settings := web_settings p; web_context := web_context p;
     web_view := web_view p; request_handlers := request_handlers p |}.

Definition with_web_view (p : CogShellPrivate) (v : option WebKitWebView) : CogShellPrivate :=
  {| name := name p; web_settings := web_settings p; web_context := web_context p;
     web_view := v; request_handlers := request_handlers p |}.

Definition with_request_handlers (p : CogShellPrivate)
    (t : option (gmap string RequestHandlerMapEntry)) : CogShellPrivate :=
  {| name := name p; web_settings := web_settings p; web_context := web_context p;
     web_view := web_view p; request_handlers := t |}.

Definition with_uri_scheme_calls (w : World) (l : list (positive * string)) : World :=
  {| priv := priv w; next_object := next_object w; website_data := website_data w;
     uri_scheme_calls := l; notifications := notifications w |}.

(** ** Accessors *)

Definition cog_shell_get_web_context (w : World) : option positive := web_context (priv w).
Definition cog_shell_get_web_settings (w : World) : option positive := web_settings (priv w).
Definition cog_shell_get_web_view (w : World) : option WebKitWebView := web_view (priv w).
Definition cog_shell_get_name (w : World) : option string := name (priv w).

(** [webkit_web_view_get_settings] and [webkit_web_view_get_context]; on a
    NULL view their [g_return_val_if_fail] guard returns NULL. *)
Definition webkit_web_view_get_settings (v : option WebKitWebView) : option positive :=
  v ≫= view_settings.
Definition webkit_web_view_get_context (v : option WebKitWebView) : option positive :=
  v ≫= view_context.

(** ** Construction *)

(** Instance private data as [g_type_create_instance] hands it over: zeroed. *)
Definition zeroed_priv : CogShellPrivate :=
  {| name := None; web_settings := None; web_context := None;
     web_view := None; request_handlers := None |}.

Definition empty_world : World :=
  {| priv := zeroed_priv; next_object := 1%positive; website_data := ∅;
     uri_scheme_calls := []; notifications := [] |}.

(** [cog_shell_init] *)
Definition cog_shell_init (env : Env) (w : World) : World :=
  match name (priv w) with
  | None => with_priv w (with_name (priv w) (g_get_prgname env))
  | Some _ => w
  end.

(** [cog_shell_set_property], case [PROP_NAME]:
    [PRIV (shell)->name = g_value_dup_string (value)]. *)
Definition cog_shell_set_property_name (value : option string) (w : World) : World :=
  with_priv w (with_name (priv w) value).

(** [cog_shell_constructed] *)
Definition cog_shell_constructed (env : Env) (w : World) : World :=
  let settings := next_object w in
  let data_dir :=
    g_build_filename env (until_null [Some (g_get_user_data_dir env); name (priv w); None]) in
  let cache_dir :=
    g_build_filename env (until_null [Some (g_get_user_cache_dir env); name (priv w); None]) in
  let context := Pos.succ settings in
  {| priv := {| name := name (priv w);
                web_settings := Some settings;
                web_context := Some context;
                web_view := web_view (priv w);
                request_handlers := request_handlers (priv w) |};
     next_object := Pos.succ context;
     website_data := <[context := (data_dir, cache_dir)]> (website_data w);
     uri_scheme_calls := uri_scheme_calls w;
     notifications := notifications w |}.

(** [cog_shell_new]: [g_object_new (COG_TYPE_SHELL, "name", name, NULL)].
    GObject creates the instance and runs the instance initialiser, then sets
    the construct properties (here [name], flagged [G_PARAM_CONSTRUCT_ONLY])
    through [set_property], then calls [constructed]. *)
Definition cog_shell_new (env : Env) (name : option string) : World :=
  cog_shell_constructed env
    (cog_shell_set_property_name name
       (cog_shell_init env empty_world)).

(** ** Request handlers *)

(** [request_handler_map_entry_new] *)
Definition request_handler_map_entry_new (h : positive) : RequestHandlerMapEntry :=
  {| handler := h; registered := false |}.

(** [request_handler_map_entry_register]: the entry is read, never written. *)
Definition request_handler_map_entry_register (scheme : string)
    (entry : RequestHandlerMapEntry) (context : option positive)
    (calls : list (positive * string)) : list (positive * string) :=
  match context with
  | Some c => if registered entry then calls else calls ++ [(c, scheme)]
  | None => calls
  end.

(** [cog_shell_set_request_handler].  The two [g_return_if_fail] guards on
    [scheme] and [handler] leave the shell as it is. *)
Definition cog_shell_set_request_handler (w : World)
    (scheme : option string) (h : option positive) : World :=
  match scheme, h with
  | Some scheme, Some h =>
      let table := default ∅ (request_handlers (priv w)) in
      let '(entry, table') :=
        match table !! scheme with
        | None =>
            let entry := request_handler_map_entry_new h in
            (entry, <[scheme := entry]> table)
        | Some entry =>
            if decide (handler entry = h) then (entry, table)
            else
              let entry' := {| handler := h; registered := registered entry |} in
              (entry', <[scheme := entry']> table)
        end in
      with_uri_scheme_calls
        (with_priv w (with_request_handlers (priv w) (Some table')))
        (request_handler_map_entry_register scheme entry
           (web_context (priv w)) (uri_scheme_calls w))
  | _, _ => w
  end.

(** ** Signals *)

(** A signal handler for [create-view]: it is handed the shell and returns a
    nullable view. *)
Definition CreateViewHandler := World → option WebKitWebView * World.

(** A [GSignalAccumulator]: from the accumulated return value and the return
    value of the handler that just ran, the new accumulated value and whether
    emission goes on. *)
Definition GSignalAccumulator (R : Type) := R → R → bool * R.

(** GLib's [g_signal_accumulator_first_wins]: copies the handler's return
    value and returns FALSE. *)
Definition g_signal_accumulator_first_wins {R} : GSignalAccumulator R :=
  λ _ handler_return, (false, handler_return).

(** Emission over the handlers in invocation order. *)
Fixpoint signal_emit {R} (accu : GSignalAccumulator R)
    (handlers : list (World → R * World)) (return_accu : R) (w : World) : R * World :=
  match handlers with
  | [] => (return_accu, w)
  | h :: rest =>
      let '(r, w') := h w in
      let '(continue, return_accu') := accu return_accu r in
      if continue then signal_emit accu rest return_accu' w' else (return_accu', w')
  end.

(** [cog_shell_create_view_base], the class handler of [create-view]. *)
Definition cog_shell_create_view_base : CreateViewHandler := λ w,
  (Some {| view_id := next_object w;
           view_settings := cog_shell_get_web_settings w;
           view_context := cog_shell_get_web_context w |},
   {| priv := priv w; next_object := Pos.succ (next_object w);
      website_data := website_data w; uri_scheme_calls := uri_scheme_calls w;
      notifications := notifications w |}).

(** [g_signal_emit (shell, s_signals[CREATE_VIEW], 0, &view)].  The signal is
    [G_SIGNAL_RUN_LAST] with the class handler [klass->create_view]: handlers
    connected with [g_signal_connect] run first, in connection order, then the
    class handler, then those connected with [g_signal_connect_after]. *)
Definition emit_create_view (connected connected_after : list CreateViewHandler)
    (w : World) : option WebKitWebView * World :=
  signal_emit g_signal_accumulator_first_wins
    (connected ++ [cog_shell_create_view_base] ++ connected_after) None w.

(** ** Startup *)

(** Result of a call that may hit a failing [g_assert]. *)
Inductive Outcome :=
  | Returned (w : World)
  | Aborted (w : World).

(** [g_hash_table_foreach (priv->request_handlers,
    request_handler_map_entry_register, priv->web_context)]; GLib leaves the
    traversal order open, the order of [map_to_list] stands for it. *)
Definition register_each (table : gmap string RequestHandlerMapEntry)
    (context : option positive) (calls : list (positive * string)) :
    list (positive * string) :=
  foldl (λ calls se, request_handler_map_entry_register se.1 se.2 context calls)
        calls (map_to_list table).

(** [cog_shell_startup_base], lines 130 to 134: the handlers in the table
    are offered to the context. *)
Definition register_pending (w : World) : World :=
  match request_handlers (priv w) with
  | Some table =>
      with_uri_scheme_calls w
        (register_each table (web_context (priv w)) (uri_scheme_calls w))
  | None => w
  end.

(** [cog_shell_startup_base]; a failing [g_assert] aborts the process. *)
Definition cog_shell_startup_base (connected connected_after : list CreateViewHandler)
    (w : World) : Outcome :=
  let w1 := register_pending w in
  let '(view, w2) := emit_create_view connected connected_after w1 in
  let w3 :=
    {| priv := with_web_view (priv w2) view; next_object := next_object w2;
       website_data := website_data w2; uri_scheme_calls := uri_scheme_calls w2;
       notifications := notifications w2 ++ ["web-view"] |} in
  if decide (webkit_web_view_get_settings (web_view (priv w3)) = web_settings (priv w3)) then
    if decide (webkit_web_view_get_context (web_view (priv w3)) = web_context (priv w3)) then
      Returned w3
    else Aborted w3
  else Aborted w3.

(** [cog_shell_startup] dispatches to [klass->startup], which
    [cog_shell_class_init] sets to [cog_shell_startup_base]. *)
Definition cog_shell_startup := cog_shell_startup_base.

(** [cog_shell_shutdown_base] *)
Definition cog_shell_shutdown_base (w : World) : World := w.

Definition outcome_world (o : Outcome) : World :=
  match o with Returned w | Aborted w => w end.

(** No entry of the handler table carries the [registered] flag. *)
Definition flags_clear (w : World) : Prop :=
  ∀ table, request_handlers (priv w) = Some table →
    map_Forall (λ _ entry, registered entry = false) table.

(** The entry the table holds for a scheme, if any. *)
Definition entry_of (w : World) (scheme : string) : option RequestHandlerMapEntry :=
  request_handlers (priv w) ≫= λ table, table !! scheme.


(** ** Sample data *)

(** An environment for a program called [cog]; path elements that carry no
    separator of their own are joined with one. *)
Definition sample_env : Env :=
  {| g_get_prgname := Some "cog";
     g_get_user_data_dir := "/home/user/.local/share";
     g_get_user_cache_dir := "/home/user/.cache";
     g_build_filename := String.concat "/" |}.

(** A [create-view] handler that returns NULL. *)
Definition null_view_handler : CreateViewHandler := λ w, (None, w).

(** A [create-view] handler that builds a view from the settings and the
    context of the shell. *)
Definition own_view_handler (id : positive) : CreateViewHandler := λ w,
  (Some {| view_id := id;
           view_settings := cog_shell_get_web_settings w;
           view_context := cog_shell_get_web_context w |}, w).

(** A [create-view] handler that builds a view from settings and a context
    of its own. *)
Definition foreign_view_handler (id settings context : positive) : CreateViewHandler :=
  λ w, (Some {| view_id := id; view_settings := Some settings;
                view_context := Some context |}, w).

(** ** Properties, disposal and request dispatch *)

(** The two members of [CogShellPrivate] left out of the record above:
    [config_file], a nullable [GKeyFile], and [device_scale_factor], a
    [gdouble] kept as the 64 bits of its IEEE 754 representation (the value
    is only stored and handed back). *)
Record CogShellPrivateRest := {
  config_file : option positive;
  device_scale_factor : Z;
}.

(** The whole instance. *)
Record Shell := {
  world : World;
  rest : CogShellPrivateRest;
}.

Definition zeroed_rest : CogShellPrivateRest :=
  {| config_file := None; device_scale_factor := 0 |}.

(** The instance [cog_shell_new] returns: [name] is the one property it
    passes to [g_object_new], the other members are as construction left
    them. *)
Definition new_shell (env : Env) (name : option string) : Shell :=
  {| world := cog_shell_new env name; rest := zeroed_rest |}.

(** The property identifiers, in the order of the [enum]. *)
Definition PROP_0 : N := 0.
Definition PROP_NAME : N := 1.
Definition PROP_WEB_SETTINGS : N := 2.
Definition PROP_WEB_CONTEXT : N := 3.
Definition PROP_WEB_VIEW : N := 4.
Definition PROP_CONFIG_FILE : N := 5.
Definition PROP_DEVICE_SCALE_FACTOR : N := 6.
Definition N_PROPERTIES : N := 7.

(** A [GValue] of one of the types the properties have. *)
Inductive GValue :=
  | GString (s : option string)
  | GObject (o : option positive)
  | GView (v : option WebKitWebView)
  | GBoxed (b : option positive)
  | GDouble (d : Z).

(** [g_value_dup_string], [g_value_get_boxed] and [g_value_get_double]; on a
    value of another type their guard returns NULL or 0. *)
Definition g_value_dup_string (v : GValue) : option string :=
  match v with GString s => s | _ => None end.
Definition g_value_get_boxed (v : GValue) : option positive :=
  match v with GBoxed b => b | _ => None end.
Definition g_value_get_double (v : GValue) : Z :=
  match v with GDouble d => d | _ => 0%Z end.

(** [cog_shell_get_config_file] and [cog_shell_get_device_scale_factor] *)
Definition cog_shell_get_config_file (s : Shell) : option positive :=
  config_file (rest s).
Definition cog_shell_get_device_scale_factor (s : Shell) : Z :=
  device_scale_factor (rest s).

(** [cog_shell_get_property]: the value it stores, or [None] when it takes the
    [default] branch, [G_OBJECT_WARN_INVALID_PROPERTY_ID], and stores
    nothing. *)
Definition cog_shell_get_property (s : Shell) (prop_id : N) : option GValue :=
  match prop_id with
  | 1%N => Some (GString (cog_shell_get_name (world s)))
  | 2%N => Some (GObject (cog_shell_get_web_settings (world s)))
  | 3%N => Some (GObject (cog_shell_get_web_context (world s)))
  | 4%N => Some (GView (cog_shell_get_web_view (world s)))
  | _ => None
  end.

(** [cog_shell_set_property]: the instance afterwards, and whether the
    [default] branch warned. *)
Definition cog_shell_set_property (s : Shell) (prop_id : N) (value : GValue) :
    Shell * bool :=
  match prop_id with
  | 1%N =>
      ({| world := cog_shell_set_property_name (g_value_dup_string value) (world s);
          rest := rest s |}, false)
  | 5%N =>
      ({| world := world s;
          rest := {| config_file := g_value_get_boxed value;
                     device_scale_factor := device_scale_factor (rest s) |} |}, false)
  | 6%N =>
      ({| world := world s;
          rest := {| config_file := config_file (rest s);
                     device_scale_factor := g_value_get_double value |} |}, false)
  | _ => (s, true)
  end.

(** [cog_shell_dispose]: each [g_clear_object] and [g_clear_pointer] leaves
    NULL in the member; the scale factor is not touched, nor is the engine
    told anything. *)
Definition cog_shell_dispose (s : Shell) : Shell :=
  {| world := with_priv (world s) zeroed_priv;
     rest := {| config_file := None;
                device_scale_factor := device_scale_factor (rest s) |} |}.



End CogShell.

(** * dinghy.c *)
Module Dinghy.

(** A [GFile] as the launcher uses it: the answers of [g_file_is_native],
    [g_file_query_exists] and [g_file_get_uri]. *)
Record GFile := {
  g_file_is_native : bool;
  g_file_query_exists : bool;
  g_file_get_uri : string;
}.

(** What the launcher reads from the process and from the headers that are
    not part of this translation unit: the [DY_VERSION_STRING] macro,
    [g_getenv], [g_get_prgname], [g_application_get_application_id],
    [g_file_new_for_commandline_arg], and [g_locale_to_utf8], which returns
    either the converted string or the message of the [GError] it sets. *)
Record Env := {
  DY_VERSION_STRING : string;
  g_getenv : string → option string;
  g_get_prgname : option string;
  g_application_get_application_id : option string;
  g_file_new_for_commandline_arg : string → GFile;
  g_locale_to_utf8 : string → string + string;
}.

(** [s_options]; [arguments] is a [GStrv], NULL or a NULL-terminated array. *)
Record Options := {
  version : bool;
  print_appid : bool;
  arguments : option (list string);
}.

(** The process as the option handler sees it: the static [s_options], the
    home URI of the launcher, and what was written to the standard output and
    error streams. *)
Record Process := {
  s_options : Options;
  home_uri : option string;
  stdout : string;
  stderr : string;
}.

(** The line feed that the C string literal ["\n"] denotes. *)
Definition LF : string := String "010"%char EmptyString.

Definition EXIT_SUCCESS : Z := 0.
Definition EXIT_FAILURE : Z := 1.

(** A ["%s"] conversion given a NULL pointer prints [(null)]. *)
Definition fmt_s (s : option string) : string := default "(null)" s.

Definition g_print (p : Process) (text : string) : Process :=
  {| s_options := s_options p; home_uri := home_uri p;
     stdout := stdout p ++ text; stderr := stderr p |}.

Definition g_printerr (p : Process) (text : string) : Process :=
  {| s_options := s_options p; home_uri := home_uri p;
     stdout := stdout p; stderr := stderr p ++ text |}.

(** [g_strfreev (s_options.arguments); s_options.arguments = NULL;] *)
Definition clear_arguments (p : Process) : Process :=
  {| s_options := {| version := version (s_options p);
                     print_appid := print_appid (s_options p);
                     arguments := None |};
     home_uri := home_uri p; stdout := stdout p; stderr := stderr p |}.

(** Modelled from the spec: [dy_launcher_set_home_uri] is defined in the
    launcher object's own source file, which is not among the sources; the
    spec says the handler "hands the resolved URI to the shell". *)
Definition dy_launcher_set_home_uri (p : Process) (uri : string) : Process :=
  {| s_options := s_options p; home_uri := Some uri;
     stdout := stdout p; stderr := stderr p |}.

(** [on_handle_local_options], lines 43 to 54: the choice of [uri].  The
    result is either the return of the handler on the spot, or the pointer
    [uri]; [s_options.arguments[0]] of an empty array is its NULL
    terminator. *)
Definition select_uri (env : Env) (p : Process) : (Z * Process) + option string :=
  match arguments (s_options p) with
  | None =>
      match g_getenv env "DINGHY_URL" with
      | None =>
          inl (EXIT_FAILURE,
               g_printerr p (fmt_s (g_get_prgname env) ++
                 ": URL not passed in the command line, and DINGHY_URL not set" ++ LF))
      | Some uri => inr (Some uri)
      end
  | Some args =>
      if (1 <? length args)%nat then
        inl (EXIT_FAILURE,
             g_printerr p (fmt_s (g_get_prgname env) ++
               ": Cannot load more than one URL." ++ LF))
      else inr (args !! 0%nat)
  end.

(** [on_handle_local_options], lines 56 to 74: from [uri] to the home URI. *)
Definition load_uri (env : Env) (p : Process) (uri : string) : Z * Process :=
  let file := g_file_new_for_commandline_arg env uri in
  let utf8_uri :=
    if g_file_is_native file && g_file_query_exists file
    then inl (g_file_get_uri file)
    else g_locale_to_utf8 env uri in
  match utf8_uri with
  | inr message =>
      (EXIT_FAILURE,
       g_printerr p (fmt_s (g_get_prgname env) ++ ": URI '" ++ uri ++
                     "' is invalid UTF-8: " ++ message ++ LF))
  | inl utf8_uri =>
      (-1, dy_launcher_set_home_uri (clear_arguments p) utf8_uri)
  end%Z.

(** [on_handle_local_options].  [None] stands for the undefined behaviour of
    going on with a NULL [uri]. *)
Definition on_handle_local_options (env : Env) (p : Process) : option (Z * Process) :=
  if version (s_options p) then
    Some (EXIT_SUCCESS, g_print p (DY_VERSION_STRING env ++ LF))
  else if print_appid (s_options p) then
    Some (EXIT_SUCCESS,
          match g_application_get_application_id env with
          | Some appid => g_print p (appid ++ LF)
          | None => p
          end)
  else
    match select_uri env p with
    | inl r => Some r
    | inr None => None
    | inr (Some uri) => Some (load_uri env p uri)
    end.

(** How [g_application_run] goes on after the [handle-local-options] signal,
    as GApplication documents it: a non-negative return value is the exit
    status of the process, which leaves without the [startup] signal; a
    negative one lets startup proceed. *)
Inductive RunResult :=
  | Exited (status : Z) (p : Process)
  | StartupProceeds (p : Process)
  | Undefined.

Definition g_application_run (env : Env) (p : Process) : RunResult :=
  match on_handle_local_options env p with
  | None => Undefined
  | Some (status, p') =>
      if (0 <=? status)%Z then Exited status p' else StartupProceeds p'
  end.

(** ** Sample data *)

(** A file system given by the command line arguments that name an existing
    native file and the URI of each; any other argument yields a file that is
    not native. *)
Definition file_for (existing : gmap string string) (arg : string) : GFile :=
  match existing !! arg with
  | Some uri =>
      {| g_file_is_native := true; g_file_query_exists := true; g_file_get_uri := uri |}
  | None =>
      {| g_file_is_native := false; g_file_query_exists := false; g_file_get_uri := arg |}
  end.

(** [g_locale_to_utf8] in the C locale: text is made of the bytes below 128,
    which are their own UTF-8 encoding. *)
Definition c_locale_to_utf8 (s : string) : string + string :=
  if forallb (λ ch, (N_of_ascii ch <? 128)%N) (list_ascii_of_string s)
  then inl s
  else inr "Invalid byte sequence in conversion input".

(** [g_locale_to_utf8] in an ISO-8859-1 locale: every byte is a character;
    those from 128 on take two bytes in UTF-8. *)
Definition latin1_char_to_utf8 (ch : ascii) : string :=
  let n := N_of_ascii ch in
  if (n <? 128)%N then String ch EmptyString
  else String (ascii_of_N (192 + n / 64))
         (String (ascii_of_N (128 + n mod 64)) EmptyString).

Fixpoint latin1_to_utf8 (s : string) : string :=
  match s with
  | EmptyString => EmptyString
  | String ch rest => latin1_char_to_utf8 ch ++ latin1_to_utf8 rest
  end.

Definition latin1_locale_to_utf8 (s : string) : string + string :=
  inl (latin1_to_utf8 s).

Definition sample_env (dinghy_url : option string) (existing : gmap string string)
    (to_utf8 : string → string + string) : Env :=
  {| DY_VERSION_STRING := "0.1";
     g_getenv := λ variable, if decide (variable = "DINGHY_URL") then dinghy_url else None;
     g_get_prgname := Some "dinghy";
     g_application_get_application_id := Some "com.igalia.Dinghy";
     g_file_new_for_commandline_arg := file_for existing;
     g_locale_to_utf8 := to_utf8 |}.

(** The process when the handler is entered, the options parsed. *)
Definition entered (o : Options) : Process :=
  {| s_options := o; home_uri := None; stdout := EmptyString; stderr := EmptyString |}.

Definition plain (args : option (list string)) : Options :=
  {| version := false; print_appid := false; arguments := args |}.

(** [caf] followed by the byte 233, the ISO-8859-1 code of e with acute
    accent. *)
Definition cafe_latin1 : string := "caf" ++ String (ascii_of_N 233) EmptyString.

(** The same word in UTF-8: [caf] followed by the bytes 195 and 169. *)
Definition cafe_utf8 : string :=
  "caf" ++ String (ascii_of_N 195) (String (ascii_of_N 169) EmptyString).

End Dinghy.

(** * Properties of the shell *)
Module ShellProps.
Import CogShell.

Section handlers.
Implicit Types (w : World) (scheme : string) (h c : positive).

Lemma cog_shell_new_flags_clear env n : flags_clear (cog_shell_new env n).
Proof. intros table H. cbn in H. destruct (g_get_prgname env); discriminate H. Qed.


Lemma set_request_handler_priv w scheme h :
  let w' := cog_shell_set_request_handler w (Some scheme) (Some h) in
  web_context (priv w') = web_context (priv w) ∧
  web_settings (priv w') = web_settings (priv w) ∧
  name (priv w') = name (priv w) ∧
  web_view (priv w') = web_view (priv w).
Proof.
  cbn. destruct (default ∅ (request_handlers (priv w)) !! scheme) as [e|];
    [destruct (decide (handler e = h))|]; cbn; auto.
Qed.

(** With a context at hand and the flag clear, every call reaches the
    engine. *)
Lemma set_request_handler_calls w scheme h c :
  web_context (priv w) = Some c → flags_clear w →
  uri_scheme_calls (cog_shell_set_request_handler w (Some scheme) (Some h))
  = uri_scheme_calls w ++ [(c, scheme)].
Proof.
  intros Hc Hf. unfold cog_shell_set_request_handler.
  destruct (request_handlers (priv w)) as [table|] eqn:Ht; cbn.
  - destruct (table !! scheme) as [e|] eqn:He.
    + pose proof (Hf table Ht scheme e He) as Hr. cbn in Hr.
      destruct (decide (handler e = h)); cbn;
        unfold request_handler_map_entry_register; rewrite Hc; cbn;
        rewrite ?Hr; reflexivity.
    + cbn. unfold request_handler_map_entry_register. rewrite Hc. reflexivity.
  - rewrite lookup_empty. cbn.
    unfold request_handler_map_entry_register. rewrite Hc. reflexivity.
Qed.

Lemma set_request_handler_flags_clear w scheme h :
  flags_clear w → flags_clear (cog_shell_set_request_handler w (Some scheme) (Some h)).
Proof.
  intros Hf table'. unfold cog_shell_set_request_handler.
  assert (Hall : map_Forall (λ _ e, registered e = false)
                   (default ∅ (request_handlers (priv w)))).
  { destruct (request_handlers (priv w)) as [t|] eqn:Ht; cbn.
    - by apply Hf.
    - apply map_Forall_empty. }
  destruct (default ∅ (request_handlers (priv w)) !! scheme) as [e|] eqn:He.
  - destruct (decide (handler e = h)); cbn; intros [= <-]; [done|].
    apply map_Forall_insert_2; [|done]. cbn. by apply (Hall scheme e).
  - cbn. intros [= <-]. apply map_Forall_insert_2; [done|done].
Qed.

(** After a call the table holds the handler that was passed. *)
Lemma set_request_handler_entry w scheme h :
  flags_clear w →
  entry_of (cog_shell_set_request_handler w (Some scheme) (Some h)) scheme
  = Some {| handler := h; registered := false |}.
Proof.
  intros Hf. unfold entry_of, cog_shell_set_request_handler.
  destruct (request_handlers (priv w)) as [table|] eqn:Ht; cbn.
  - destruct (table !! scheme) as [e|] eqn:He.
    + pose proof (Hf table Ht scheme e He) as Hr. cbn in Hr.
      destruct (decide (handler e = h)) as [<-|]; cbn.
      * rewrite He. destruct e; cbn in *; by subst.
      * rewrite lookup_insert_eq. by rewrite Hr.
    + cbn. by rewrite lookup_insert_eq.
  - rewrite lookup_empty. cbn. by rewrite lookup_insert_eq.
Qed.

(** A call on another scheme leaves the entry alone. *)
Lemma set_request_handler_other w scheme scheme' h :
  scheme ≠ scheme' →
  entry_of (cog_shell_set_request_handler w (Some scheme) (Some h)) scheme'
  = entry_of w scheme'.
Proof.
  intros Hne. unfold entry_of, cog_shell_set_request_handler.
  destruct (request_handlers (priv w)) as [table|] eqn:Ht; cbn.
  - destruct (table !! scheme) as [e|] eqn:He;
      [destruct (decide (handler e = h))|]; cbn; try done;
      by rewrite lookup_insert_ne.
  - rewrite lookup_empty. cbn. by rewrite lookup_insert_ne, lookup_empty.
Qed.

(** The guards: a NULL scheme or a NULL handler leaves everything as it
    is. *)
Lemma set_request_handler_guard w (s : option string) (oh : option positive) :
  s = None ∨ oh = None → cog_shell_set_request_handler w s oh = w.
Proof. intros [-> | ->]; [done|]. by destruct s. Qed.



End handlers.

Section startup.
Implicit Types (w : World) (scheme : string) (h c : positive).

Lemma filter_all {A} (P : A → Prop) `{!∀ x, Decision (P x)} (l : list A) :
  Forall P l → filter P l = l.
Proof.
  induction 1 as [|x l Hx _ IH]; [done|].
  rewrite filter_cons_True by done. by rewrite IH.
Qed.

Lemma foldl_register c (l : list (string * RequestHandlerMapEntry)) calls :
  foldl (λ calls se, request_handler_map_entry_register se.1 se.2 (Some c) calls) calls l
  = calls ++ ((λ se, (c, se.1)) <$> filter (λ se, registered se.2 = false) l).
Proof.
  revert calls. induction l as [|[s e] l IH]; intros calls.
  - cbn. by rewrite app_nil_r.
  - cbn [foldl]. rewrite IH. cbn [fst snd].
    unfold request_handler_map_entry_register.
    destruct (registered e) eqn:Hr.
    + rewrite filter_cons_False; [done|]. cbn. by rewrite Hr.
    + rewrite filter_cons_True by done. cbn. by rewrite <- app_assoc.
Qed.

(** Startup offers to the context the entries whose flag is clear. *)
Lemma register_each_some table c calls :
  register_each table (Some c) calls
  = calls ++ ((λ se, (c, se.1)) <$>
              filter (λ se, registered se.2 = false) (map_to_list table)).
Proof. apply foldl_register. Qed.

(** Without a context nothing is registered. *)
Lemma register_each_none table calls : register_each table None calls = calls.
Proof.
  unfold register_each. generalize (map_to_list table) as l.
  induction l as [|se l IH]; [done|]. cbn. apply IH.
Qed.

Lemma register_pending_priv w : priv (register_pending w) = priv w.
Proof. unfold register_pending. by destruct (request_handlers (priv w)). Qed.

Lemma register_pending_next w : next_object (register_pending w) = next_object w.
Proof. unfold register_pending. by destruct (request_handlers (priv w)). Qed.

(** With the flags clear, startup offers every entry of the table. *)
Lemma register_pending_calls w c table :
  web_context (priv w) = Some c → request_handlers (priv w) = Some table →
  flags_clear w →
  uri_scheme_calls (register_pending w)
  = uri_scheme_calls w ++ ((λ se, (c, se.1)) <$> map_to_list table).
Proof.
  intros Hc Ht Hf. unfold register_pending. rewrite Ht, Hc. cbn.
  rewrite register_each_some. f_equal. f_equal.
  apply filter_all. apply Forall_forall. intros [s e] Hin. cbn.
  apply elem_of_map_to_list in Hin. by apply (Hf table Ht s e).
Qed.

(** Startup when only the class handler answers [create-view]. *)
Lemma startup_default_view w after :
  cog_shell_startup_base [] after w
  = Returned
      {| priv := with_web_view (priv w)
                   (Some {| view_id := next_object w;
                            view_settings := web_settings (priv w);
                            view_context := web_context (priv w) |});
         next_object := Pos.succ (next_object w);
         website_data := website_data (register_pending w);
         uri_scheme_calls := uri_scheme_calls (register_pending w);
         notifications := notifications (register_pending w) ++ ["web-view"] |}.
Proof.
  unfold cog_shell_startup_base, emit_create_view. cbn.
  unfold cog_shell_get_web_settings, cog_shell_get_web_context.
  rewrite !register_pending_priv, register_pending_next.
  rewrite !decide_True by done. reflexivity.
Qed.

(** Startup when a connected handler runs first: its return value is the
    view, and the two assertions decide. *)
Lemma startup_first_handler w l rest after view w2 :
  l (register_pending w) = (view, w2) →
  let w3 :=
    {| priv := with_web_view (priv w2) view; next_object := next_object w2;
       website_data := website_data w2; uri_scheme_calls := uri_scheme_calls w2;
       notifications := notifications w2 ++ ["web-view"] |} in
  cog_shell_startup_base (l :: rest) after w
  = if decide (webkit_web_view_get_settings view = web_settings (priv w2)) then
      if decide (webkit_web_view_get_context view = web_context (priv w2)) then
        Returned w3
      else Aborted w3
    else Aborted w3.
Proof.
  intros Hl. unfold cog_shell_startup_base, emit_create_view. cbn.
  rewrite Hl. cbn. reflexivity.
Qed.

End startup.

Section claims.
Implicit Types (w : World) (scheme : string) (h c : positive).

(** C1 (the code departs from the claim).  With a context at hand, two
    calls of [cog_shell_set_request_handler] for one scheme with two
    different handlers leave the second handler in the table, its
    [registered] flag still clear, and both calls reach
    [webkit_web_context_register_uri_scheme] for that scheme: the flag that
    should stop the second call is never raised. *)
Theorem set_request_handler_twice_registers_twice w c scheme h1 h2 :
  web_context (priv w) = Some c → flags_clear w → h1 ≠ h2 →
  let w1 := cog_shell_set_request_handler w (Some scheme) (Some h1) in
  let w2 := cog_shell_set_request_handler w1 (Some scheme) (Some h2) in
  entry_of w1 scheme = Some {| handler := h1; registered := false |} ∧
  entry_of w2 scheme = Some {| handler := h2; registered := false |} ∧
  uri_scheme_calls w1 = uri_scheme_calls w ++ [(c, scheme)] ∧
  uri_scheme_calls w2 = uri_scheme_calls w ++ [(c, scheme); (c, scheme)].
Proof.
  intros Hc Hf _ w1 w2.
  assert (Hc1 : web_context (priv w1) = Some c).
  { subst w1. by rewrite (proj1 (set_request_handler_priv w scheme h1)). }
  assert (Hf1 : flags_clear w1) by by apply set_request_handler_flags_clear.
  split_and!.
  - by apply set_request_handler_entry.
  - by apply set_request_handler_entry.
  - by apply set_request_handler_calls.
  - subst w2. rewrite (set_request_handler_calls w1 scheme h2 c Hc1 Hf1).
    subst w1. rewrite (set_request_handler_calls w scheme h1 c Hc Hf).
    by rewrite <- app_assoc.
Qed.

Lemma set_request_handler_twice_witness :
  let w := cog_shell_new sample_env (Some "cog") in
  let w1 := cog_shell_set_request_handler w (Some "about") (Some 10%positive) in
  let w2 := cog_shell_set_request_handler w1 (Some "about") (Some 11%positive) in
  web_context (priv w) = Some 2%positive ∧ flags_clear w ∧
  entry_of w2 "about" = Some {| handler := 11; registered := false |} ∧
  uri_scheme_calls w2 = [(2%positive, "about"); (2%positive, "about")].
Proof.
  intros w w1 w2.
  pose proof (set_request_handler_twice_registers_twice w 2 "about" 10 11
                eq_refl (cog_shell_new_flags_clear _ _) ltac:(discriminate))
    as (_ & H2 & _ & H4).
  split_and!; [reflexivity | apply cog_shell_new_flags_clear | exact H2 | exact H4].
Defined.

(** C2 (the code departs from the claim).  A handler set while the context
    exists is registered with it on the spot, and [cog_shell_startup_base]
    then registers the same scheme with the same context once more: the
    record is still marked as not registered. *)
Theorem startup_registers_registered_again w c scheme h after :
  web_context (priv w) = Some c → flags_clear w →
  let w1 := cog_shell_set_request_handler w (Some scheme) (Some h) in
  let w2 := outcome_world (cog_shell_startup_base [] after w1) in
  uri_scheme_calls w1 = uri_scheme_calls w ++ [(c, scheme)] ∧
  ∃ before later,
    uri_scheme_calls w2 = uri_scheme_calls w1 ++ before ++ [(c, scheme)] ++ later.
Proof.
  intros Hc Hf w1 w2.
  assert (Hc1 : web_context (priv w1) = Some c).
  { subst w1. by rewrite (proj1 (set_request_handler_priv w scheme h)). }
  assert (Hf1 : flags_clear w1) by by apply set_request_handler_flags_clear.
  split; [by apply set_request_handler_calls|].
  pose proof (set_request_handler_entry w scheme h Hf) as He.
  fold w1 in He. unfold entry_of in He.
  destruct (request_handlers (priv w1)) as [table|] eqn:Ht; [|discriminate He].
  cbn in He. apply elem_of_map_to_list in He.
  apply list_elem_of_split in He as (l1 & l2 & Hl).
  subst w2. rewrite startup_default_view. cbn [outcome_world uri_scheme_calls].
  rewrite (register_pending_calls w1 c table Hc1 Ht Hf1), Hl.
  rewrite fmap_app, fmap_cons. cbn. eauto.
Qed.

Lemma startup_registers_registered_again_witness :
  let w := cog_shell_new sample_env (Some "cog") in
  let w1 := cog_shell_set_request_handler w (Some "about") (Some 10%positive) in
  let w2 := outcome_world (cog_shell_startup_base [] [] w1) in
  web_context (priv w) = Some 2%positive ∧ flags_clear w ∧
  uri_scheme_calls w1 = [(2%positive, "about")] ∧
  ∃ before later,
    uri_scheme_calls w2 = uri_scheme_calls w1 ++ before ++ [(2%positive, "about")] ++ later.
Proof.
  intros w w1 w2.
  pose proof (startup_registers_registered_again w 2 "about" 10 []
                eq_refl (cog_shell_new_flags_clear _ _)) as [H1 H2].
  split_and!; [reflexivity | apply cog_shell_new_flags_clear | exact H1 | exact H2].
Defined.

(** The calls of the C2 scenario, evaluated. *)
Example startup_registers_about_twice :
  let w := cog_shell_new sample_env (Some "cog") in
  let w1 := cog_shell_set_request_handler w (Some "about") (Some 10%positive) in
  uri_scheme_calls (outcome_world (cog_shell_startup_base [] [] w1))
  = [(2%positive, "about"); (2%positive, "about")].
Proof. vm_compute. reflexivity. Qed.

(** C5 (amended).  [cog_shell_startup_base] emits [create-view] with the
    first handler to run deciding the view and ending the emission.  When no
    handler is connected the class handler builds a view from the settings
    and the context of the shell and that view is kept.  When a handler is
    connected, what the first one returns is the view of the shell, be it a
    view or NULL, and neither the handlers connected after it nor those
    connected to run after the class handler change anything; when that
    return value is a view that shares the settings and the context of the
    shell, startup returns with it as the view of the shell. *)
Theorem create_view_first_handler_wins w :
  (∀ after, ∃ w',
      cog_shell_startup_base [] after w = Returned w' ∧
      cog_shell_get_web_view w'
      = Some {| view_id := next_object w;
                view_settings := cog_shell_get_web_settings w;
                view_context := cog_shell_get_web_context w |} ∧
      cog_shell_get_web_settings w' = cog_shell_get_web_settings w ∧
      cog_shell_get_web_context w' = cog_shell_get_web_context w) ∧
  (∀ l rest after view w2,
      l (register_pending w) = (view, w2) →
      cog_shell_get_web_view (outcome_world (cog_shell_startup_base (l :: rest) after w))
      = view ∧
      cog_shell_startup_base (l :: rest) after w = cog_shell_startup_base [l] [] w) ∧
  (∀ l rest after v w2,
      l (register_pending w) = (Some v, w2) →
      view_settings v = cog_shell_get_web_settings w2 →
      view_context v = cog_shell_get_web_context w2 →
      ∃ w', cog_shell_startup_base (l :: rest) after w = Returned w' ∧
            cog_shell_get_web_view w' = Some v).
Proof.
  split_and!.
  - intros after. eexists. split; [apply startup_default_view|]. by cbn.
  - intros l rest after view w2 Hl.
    pose proof (startup_first_handler w l rest after view w2 Hl) as H1.
    pose proof (startup_first_handler w l [] [] view w2 Hl) as H2.
    cbv zeta in H1, H2. split; [|exact (eq_trans H1 (eq_sym H2))].
    rewrite H1. by repeat case_decide.
  - intros l rest after v w2 Hl Hs Hx.
    rewrite (startup_first_handler w l rest after (Some v) w2 Hl). cbn.
    unfold cog_shell_get_web_settings, cog_shell_get_web_context in *.
    rewrite !decide_True by done. eauto.
Qed.

Lemma create_view_first_handler_wins_witness :
  let w := cog_shell_new sample_env (Some "cog") in
  let v := {| view_id := 50; view_settings := Some 1%positive;
              view_context := Some 2%positive |} in
  own_view_handler 50 (register_pending w) = (Some v, w) ∧
  (∃ w', cog_shell_startup_base [own_view_handler 50; null_view_handler] [] w
         = Returned w' ∧ cog_shell_get_web_view w' = Some v) ∧
  null_view_handler (register_pending w) = (None, w) ∧
  cog_shell_get_web_view
    (outcome_world (cog_shell_startup_base [null_view_handler; own_view_handler 50] [] w))
  = None.
Proof.
  intros w v.
  pose proof (create_view_first_handler_wins w) as (_ & Hfirst & Hkept).
  split_and!; [reflexivity | | reflexivity |].
  - exact (Hkept (own_view_handler 50) [null_view_handler] [] v w
             eq_refl eq_refl eq_refl).
  - exact (proj1 (Hfirst null_view_handler [own_view_handler 50] [] None w eq_refl)).
Defined.

(** C5 as stated fails: a first handler that returns no view ends the
    emission; neither the view a later handler would supply nor a default
    view is kept, and startup stops at its assertion. *)
Lemma create_view_empty_first_handler :
  let w := cog_shell_new sample_env (Some "cog") in
  (own_view_handler 50 w).1
  = Some {| view_id := 50; view_settings := cog_shell_get_web_settings w;
            view_context := cog_shell_get_web_context w |} ∧
  (∃ w', cog_shell_startup_base [null_view_handler; own_view_handler 50] [] w
         = Aborted w' ∧ cog_shell_get_web_view w' = None) ∧
  (∃ w', cog_shell_startup_base [null_view_handler] [] w
         = Aborted w' ∧ cog_shell_get_web_view w' = None).
Proof. cbn. split_and!; [reflexivity | eexists; split; reflexivity ..]. Qed.

(** C6.  When the [create-view] handler that runs returns a view whose
    settings or whose context is not the instance the shell holds,
    [cog_shell_startup_base] ends in the failing assertion and does not
    return. *)
Theorem startup_mismatched_view_aborts w l rest after v w2 :
  l (register_pending w) = (Some v, w2) →
  view_settings v ≠ cog_shell_get_web_settings w2 ∨
  view_context v ≠ cog_shell_get_web_context w2 →
  (∃ w', cog_shell_startup_base (l :: rest) after w = Aborted w') ∧
  (∀ w', cog_shell_startup_base (l :: rest) after w ≠ Returned w').
Proof.
  intros Hl Hne.
  rewrite (startup_first_handler w l rest after (Some v) w2 Hl). cbn.
  unfold cog_shell_get_web_settings, cog_shell_get_web_context in *.
  destruct (decide (view_settings v = web_settings (priv w2))) as [Hs|Hs];
    [destruct (decide (view_context v = web_context (priv w2))) as [Hx|Hx]|];
    [by destruct Hne | by eauto ..].
Qed.

Lemma startup_mismatched_view_aborts_witness :
  let w := cog_shell_new sample_env (Some "cog") in
  cog_shell_get_web_settings w = Some 1%positive ∧
  (∃ w', cog_shell_startup_base [foreign_view_handler 50 7 2] [] w = Aborted w') ∧
  (∀ w', cog_shell_startup_base [foreign_view_handler 50 7 2] [] w ≠ Returned w').
Proof.
  intros w. split; [reflexivity|].
  apply (startup_mismatched_view_aborts w (foreign_view_handler 50 7 2) [] []
           {| view_id := 50; view_settings := Some 7%positive;
              view_context := Some 2%positive |} w eq_refl).
  left. cbn. discriminate.
Defined.

(** A shell made with a name keeps it and derives its directories from
    it. *)
Lemma cog_shell_new_named env n :
  let w := cog_shell_new env (Some n) in
  cog_shell_get_name w = Some n ∧
  (cog_shell_get_web_context w ≫= λ c, website_data w !! c)
  = Some (g_build_filename env [g_get_user_data_dir env; n],
          g_build_filename env [g_get_user_cache_dir env; n]).
Proof.
  cbn. unfold cog_shell_init, cog_shell_get_name, cog_shell_get_web_context,
    cog_shell_new, cog_shell_init. cbn.
  destruct (g_get_prgname env); cbn; by rewrite lookup_insert_eq.
Qed.

(** C10 (the code departs from the claim).  [cog_shell_init] does put the
    program name into a shell without a name, but the construct property
    [name] is set after it: a shell made with a NULL name ends with a NULL
    name, and its data and cache directories are built from the user
    directories alone. *)
Theorem null_name_is_not_defaulted env :
  let w := cog_shell_new env None in
  cog_shell_get_name (cog_shell_init env empty_world) = g_get_prgname env ∧
  cog_shell_get_name w = None ∧
  (cog_shell_get_web_context w ≫= λ c, website_data w !! c)
  = Some (g_build_filename env [g_get_user_data_dir env],
          g_build_filename env [g_get_user_cache_dir env]).
Proof.
  cbn. unfold cog_shell_get_name, cog_shell_get_web_context, cog_shell_new,
    cog_shell_init. cbn.
  destruct (g_get_prgname env); cbn; by rewrite lookup_insert_eq.
Qed.

(** The C10 scenario, evaluated for a program called [cog]. *)
Example null_name_for_cog :
  let w := cog_shell_new sample_env None in
  g_get_prgname sample_env = Some "cog" ∧
  cog_shell_get_name w = None ∧
  website_data w !! 2%positive
  = Some ("/home/user/.local/share", "/home/user/.cache").
Proof. vm_compute. split_and!; reflexivity. Qed.

End claims.

End ShellProps.

(** * Properties of the launcher *)
Module LauncherProps.
Import Dinghy.

Section local_options.
Variable env : Env.
Implicit Types (p : Process) (a u : string).

(** The value that [select_uri] hands on: the one positional argument, or
    the value of [DINGHY_URL] when there is no positional argument. *)
Lemma select_uri_value p a :
  arguments (s_options p) = Some [a] ∨
  (arguments (s_options p) = None ∧ g_getenv env "DINGHY_URL" = Some a) →
  select_uri env p = inr (Some a).
Proof.
  unfold select_uri. intros [-> | [-> ->]]; reflexivity.
Qed.

Lemma handler_loads_value p a :
  version (s_options p) = false → print_appid (s_options p) = false →
  arguments (s_options p) = Some [a] ∨
  (arguments (s_options p) = None ∧ g_getenv env "DINGHY_URL" = Some a) →
  on_handle_local_options env p = Some (load_uri env p a).
Proof.
  intros Hv Hp Ha. unfold on_handle_local_options.
  by rewrite Hv, Hp, (select_uri_value p a Ha).
Qed.

(** [load_uri] on a value that is not an existing native file. *)
Lemma load_uri_opaque p a :
  g_file_is_native (g_file_new_for_commandline_arg env a)
    && g_file_query_exists (g_file_new_for_commandline_arg env a) = false →
  load_uri env p a
  = match g_locale_to_utf8 env a with
    | inl utf8_uri => ((-1)%Z, dy_launcher_set_home_uri (clear_arguments p) utf8_uri)
    | inr message =>
        (EXIT_FAILURE,
         g_printerr p (fmt_s (g_get_prgname env) ++ ": URI '" ++ a ++
                       "' is invalid UTF-8: " ++ message ++ LF))
    end.
Proof. intros H. unfold load_uri. by rewrite H. Qed.

(** [load_uri] on a value that names an existing native file. *)
Lemma load_uri_file p a :
  g_file_is_native (g_file_new_for_commandline_arg env a) = true →
  g_file_query_exists (g_file_new_for_commandline_arg env a) = true →
  load_uri env p a
  = ((-1)%Z, dy_launcher_set_home_uri (clear_arguments p)
               (g_file_get_uri (g_file_new_for_commandline_arg env a))).
Proof. intros Hn He. unfold load_uri. by rewrite Hn, He. Qed.

(** The handler never touches the home URI unless it returns -1. *)
Lemma home_uri_set_only_on_continue p status p' :
  on_handle_local_options env p = Some (status, p') →
  status ≠ (-1)%Z → home_uri p' = home_uri p.
Proof.
  unfold on_handle_local_options, select_uri, load_uri.
  repeat case_match; simplify_eq; intros [= <- <-]; try done;
    try (intros _; reflexivity).
Qed.

End local_options.

Section claims.
Implicit Types (env : Env) (p : Process) (a u : string).

(** C3 (amended).  With [--version] and [--print-appid] absent, the value
    to load is the single positional argument when exactly one is given,
    whatever [DINGHY_URL] holds, else the value of [DINGHY_URL] when there is
    no positional argument and the variable is set.  That value becomes the
    home URI in this way: when it names an existing native file, the home URI
    is the URI of the file; otherwise, when [g_locale_to_utf8] accepts it,
    the home URI is the string the conversion returns; otherwise the handler
    reports an encoding error, returns [EXIT_FAILURE] and sets no home URI.
    With neither a positional argument nor [DINGHY_URL], the handler reports
    a usage error, returns [EXIT_FAILURE] so that the run ends before
    startup, and sets no home URI. *)
Theorem start_url_resolution_order env p :
  version (s_options p) = false → print_appid (s_options p) = false →
  (∀ v,
     arguments (s_options p) = Some [v] ∨
     (arguments (s_options p) = None ∧ g_getenv env "DINGHY_URL" = Some v) →
     let file := g_file_new_for_commandline_arg env v in
     (g_file_is_native file = true → g_file_query_exists file = true →
        ∃ p', on_handle_local_options env p = Some ((-1)%Z, p') ∧
              g_application_run env p = StartupProceeds p' ∧
              home_uri p' = Some (g_file_get_uri file)) ∧
     (g_file_is_native file && g_file_query_exists file = false →
        (∀ u', g_locale_to_utf8 env v = inl u' →
           ∃ p', on_handle_local_options env p = Some ((-1)%Z, p') ∧
                 g_application_run env p = StartupProceeds p' ∧
                 home_uri p' = Some u') ∧
        (∀ message, g_locale_to_utf8 env v = inr message →
           ∃ p', on_handle_local_options env p = Some (EXIT_FAILURE, p') ∧
                 g_application_run env p = Exited EXIT_FAILURE p' ∧
                 home_uri p' = home_uri p ∧
                 p' = g_printerr p (fmt_s (g_get_prgname env) ++ ": URI '" ++ v ++
                                    "' is invalid UTF-8: " ++ message ++ LF)))) ∧
  (arguments (s_options p) = None → g_getenv env "DINGHY_URL" = None →
     ∃ p', on_handle_local_options env p = Some (EXIT_FAILURE, p') ∧
           g_application_run env p = Exited EXIT_FAILURE p' ∧
           home_uri p' = home_uri p ∧
           p' = g_printerr p (fmt_s (g_get_prgname env) ++
                  ": URL not passed in the command line, and DINGHY_URL not set" ++ LF)).
Proof.
  intros Hv Hp. split.
  - intros v Hsel file.
    pose proof (handler_loads_value env p v Hv Hp Hsel) as Hload.
    split; [|intros Hf; split].
    + intros Hn He. eexists.
      assert (Hr : on_handle_local_options env p
                   = Some ((-1)%Z, dy_launcher_set_home_uri (clear_arguments p)
                                     (g_file_get_uri file))).
      { rewrite Hload. by rewrite load_uri_file. }
      split_and!; [exact Hr | | reflexivity].
      unfold g_application_run. by rewrite Hr.
    + intros u' Hc. eexists.
      assert (Hr : on_handle_local_options env p
                   = Some ((-1)%Z, dy_launcher_set_home_uri (clear_arguments p) u')).
      { rewrite Hload. by rewrite load_uri_opaque, Hc. }
      split_and!; [exact Hr | | reflexivity].
      unfold g_application_run. by rewrite Hr.
    + intros message Hc. eexists.
      assert (Hr : on_handle_local_options env p
                   = Some (EXIT_FAILURE,
                           g_printerr p (fmt_s (g_get_prgname env) ++ ": URI '" ++ v ++
                                         "' is invalid UTF-8: " ++ message ++ LF))).
      { rewrite Hload. by rewrite load_uri_opaque, Hc. }
      split_and!; [exact Hr | | reflexivity | reflexivity].
      unfold g_application_run. by rewrite Hr.
  - intros Ha Hu. eexists.
    assert (Hr : on_handle_local_options env p
                 = Some (EXIT_FAILURE,
                         g_printerr p (fmt_s (g_get_prgname env) ++
                           ": URL not passed in the command line, and DINGHY_URL not set"
                           ++ LF))).
    { unfold on_handle_local_options, select_uri. by rewrite Hv, Hp, Ha, Hu. }
    split_and!; [exact Hr | | reflexivity | reflexivity].
    unfold g_application_run. by rewrite Hr.
Qed.

Lemma start_url_resolution_order_witness :
  let env := sample_env (Some "https://example.org") ∅ c_locale_to_utf8 in
  let p := entered (plain None) in
  g_getenv env "DINGHY_URL" = Some "https://example.org" ∧
  ∃ p', on_handle_local_options env p = Some ((-1)%Z, p') ∧
        g_application_run env p = StartupProceeds p' ∧
        home_uri p' = Some "https://example.org".
Proof.
  intros env p. split; [reflexivity|].
  exact (proj1 (proj2 (proj1 (start_url_resolution_order env p eq_refl eq_refl)
                         "https://example.org" (or_intror (conj eq_refl eq_refl)))
                 eq_refl)
           "https://example.org" eq_refl).
Defined.

(** C3 as stated fails: a [DINGHY_URL] that names an existing native file
    does not become the home URI as it is; the URI of the file does. *)
Lemma dinghy_url_naming_a_file :
  let env := sample_env (Some "/srv/www/index.html")
               {[ "/srv/www/index.html" := "file:///srv/www/index.html" ]}
               c_locale_to_utf8 in
  let p := entered (plain None) in
  g_getenv env "DINGHY_URL" = Some "/srv/www/index.html" ∧
  arguments (s_options p) = None ∧
  (snd <$> on_handle_local_options env p) ≫= home_uri
    = Some "file:///srv/www/index.html" ∧
  (snd <$> on_handle_local_options env p) ≫= home_uri
    ≠ g_getenv env "DINGHY_URL".
Proof. vm_compute. split_and!; [reflexivity .. | discriminate]. Qed.

(** C4.  With [--version] and [--print-appid] absent and two or more
    positional arguments, the handler reports a usage error and returns
    [EXIT_FAILURE], whatever the environment holds, the run ends before
    startup, and the home URI is left as it was. *)
Theorem more_than_one_argument_fails env p args :
  version (s_options p) = false → print_appid (s_options p) = false →
  arguments (s_options p) = Some args → 2 ≤ length args →
  let p' := g_printerr p (fmt_s (g_get_prgname env) ++
                          ": Cannot load more than one URL." ++ LF) in
  on_handle_local_options env p = Some (EXIT_FAILURE, p') ∧
  g_application_run env p = Exited EXIT_FAILURE p' ∧
  home_uri p' = home_uri p.
Proof.
  intros Hv Hp Ha Hlen p'.
  assert (Hr : on_handle_local_options env p = Some (EXIT_FAILURE, p')).
  { unfold on_handle_local_options, select_uri. rewrite Hv, Hp, Ha.
    destruct (1 <? length args) eqn:Hlt; [done|].
    apply Nat.ltb_ge in Hlt. lia. }
  split_and!; [exact Hr | | reflexivity].
  unfold g_application_run. by rewrite Hr.
Qed.

Lemma more_than_one_argument_fails_witness :
  let env := sample_env (Some "https://example.org") ∅ c_locale_to_utf8 in
  let p := entered (plain (Some ["https://a.example"; "https://b.example"])) in
  2 ≤ length ["https://a.example"; "https://b.example"] ∧
  (∃ p', on_handle_local_options env p = Some (EXIT_FAILURE, p') ∧
         g_application_run env p = Exited EXIT_FAILURE p' ∧
         home_uri p' = None).
Proof.
  intros env p. split; [cbn; lia|]. eexists.
  apply (more_than_one_argument_fails env p
           ["https://a.example"; "https://b.example"] eq_refl eq_refl eq_refl).
  cbn; lia.
Defined.

(** C7.  With [--version] and [--print-appid] absent, a value (the
    positional argument, or [DINGHY_URL] in its absence) that names an
    existing file on a native file system makes the home URI the URI that
    GIO gives for that file, and startup proceeds; [g_locale_to_utf8] has no
    say in it. *)
Theorem existing_file_becomes_file_uri env p a :
  version (s_options p) = false → print_appid (s_options p) = false →
  arguments (s_options p) = Some [a] ∨
  (arguments (s_options p) = None ∧ g_getenv env "DINGHY_URL" = Some a) →
  g_file_is_native (g_file_new_for_commandline_arg env a) = true →
  g_file_query_exists (g_file_new_for_commandline_arg env a) = true →
  let p' := dy_launcher_set_home_uri (clear_arguments p)
              (g_file_get_uri (g_file_new_for_commandline_arg env a)) in
  on_handle_local_options env p = Some ((-1)%Z, p') ∧
  g_application_run env p = StartupProceeds p' ∧
  home_uri p' = Some (g_file_get_uri (g_file_new_for_commandline_arg env a)).
Proof.
  intros Hv Hp Ha Hn He p'.
  assert (Hr : on_handle_local_options env p = Some ((-1)%Z, p')).
  { rewrite (handler_loads_value env p a Hv Hp Ha). by rewrite load_uri_file. }
  split_and!; [exact Hr | | reflexivity].
  unfold g_application_run. by rewrite Hr.
Qed.

Lemma existing_file_becomes_file_uri_witness :
  let env := sample_env None
               {[ "/srv/www/index.html" := "file:///srv/www/index.html" ]}
               latin1_locale_to_utf8 in
  let p := entered (plain (Some ["/srv/www/index.html"])) in
  g_locale_to_utf8 env "/srv/www/index.html" = inl "/srv/www/index.html" ∧
  ∃ p', on_handle_local_options env p = Some ((-1)%Z, p') ∧
        g_application_run env p = StartupProceeds p' ∧
        home_uri p' = Some "file:///srv/www/index.html".
Proof.
  intros env p. split; [reflexivity|]. eexists.
  exact (existing_file_becomes_file_uri env p "/srv/www/index.html"
           eq_refl eq_refl (or_introl eq_refl) eq_refl eq_refl).
Defined.

(** C8 (amended).  With [--version] and [--print-appid] absent, a value
    (the positional argument, or [DINGHY_URL] in its absence) that does not
    name an existing native file and that [g_locale_to_utf8] accepts makes
    the home URI the string that [g_locale_to_utf8] returns for it, and
    startup proceeds; the home URI is the value itself exactly when the
    conversion returns it unchanged. *)
Theorem opaque_uri_is_converted env p a u :
  version (s_options p) = false → print_appid (s_options p) = false →
  arguments (s_options p) = Some [a] ∨
  (arguments (s_options p) = None ∧ g_getenv env "DINGHY_URL" = Some a) →
  g_file_is_native (g_file_new_for_commandline_arg env a)
    && g_file_query_exists (g_file_new_for_commandline_arg env a) = false →
  g_locale_to_utf8 env a = inl u →
  let p' := dy_launcher_set_home_uri (clear_arguments p) u in
  on_handle_local_options env p = Some ((-1)%Z, p') ∧
  g_application_run env p = StartupProceeds p' ∧
  home_uri p' = Some u ∧
  (home_uri p' = Some a ↔ u = a).
Proof.
  intros Hv Hp Ha Hf Hc p'.
  assert (Hr : on_handle_local_options env p = Some ((-1)%Z, p')).
  { rewrite (handler_loads_value env p a Hv Hp Ha).
    by rewrite load_uri_opaque, Hc. }
  split_and!; [exact Hr | | reflexivity |].
  - unfold g_application_run. by rewrite Hr.
  - cbn. split; [by intros [= ->] | by intros ->].
Qed.

Lemma opaque_uri_is_converted_witness :
  let env := sample_env None ∅ c_locale_to_utf8 in
  let p := entered (plain (Some ["https://example.org"])) in
  g_locale_to_utf8 env "https://example.org" = inl "https://example.org" ∧
  ∃ p', on_handle_local_options env p = Some ((-1)%Z, p') ∧
        g_application_run env p = StartupProceeds p' ∧
        home_uri p' = Some "https://example.org".
Proof.
  intros env p. split; [reflexivity|]. eexists.
  pose proof (opaque_uri_is_converted env p "https://example.org"
                "https://example.org" eq_refl eq_refl (or_introl eq_refl)
                eq_refl eq_refl) as (H1 & H2 & H3 & _).
  split_and!; [exact H1 | exact H2 | exact H3].
Defined.

(** C8 as stated fails: in an ISO-8859-1 locale a value with a byte from
    128 on is valid text and names no file, yet the home URI is not that
    string: it is its re-encoding in UTF-8. *)
Lemma latin1_value_is_reencoded :
  let env := sample_env None ∅ latin1_locale_to_utf8 in
  let p := entered (plain (Some [cafe_latin1])) in
  g_file_is_native (g_file_new_for_commandline_arg env cafe_latin1)
    && g_file_query_exists (g_file_new_for_commandline_arg env cafe_latin1) = false ∧
  g_locale_to_utf8 env cafe_latin1 = inl cafe_utf8 ∧
  (snd <$> on_handle_local_options env p) ≫= home_uri = Some cafe_utf8 ∧
  (snd <$> on_handle_local_options env p) ≫= home_uri ≠ Some cafe_latin1.
Proof. vm_compute. split_and!; [reflexivity .. | discriminate]. Qed.

(** C9.  With [--version], the handler appends the version string and a
    line feed to the standard output, writes nothing else, returns
    [EXIT_SUCCESS], which is 0, and the run ends with that status before
    startup; the arguments, the environment and the home URI play no
    part. *)
Theorem version_flag_prints_and_exits env p :
  version (s_options p) = true →
  let p' := g_print p (DY_VERSION_STRING env ++ LF) in
  on_handle_local_options env p = Some (0%Z, p') ∧
  g_application_run env p = Exited 0 p' ∧
  stdout p' = (stdout p ++ DY_VERSION_STRING env ++ LF)%string ∧
  stderr p' = stderr p ∧
  home_uri p' = home_uri p ∧
  (∀ env', DY_VERSION_STRING env' = DY_VERSION_STRING env →
           on_handle_local_options env' p = on_handle_local_options env p).
Proof.
  intros Hv p'.
  assert (Hr : ∀ e, on_handle_local_options e p
                    = Some (0%Z, g_print p (DY_VERSION_STRING e ++ LF))).
  { intros e. unfold on_handle_local_options. by rewrite Hv. }
  split_and!; [apply Hr | | reflexivity | reflexivity | reflexivity |].
  - unfold g_application_run. by rewrite Hr.
  - intros env' He. by rewrite !Hr, He.
Qed.

Lemma version_flag_prints_and_exits_witness :
  let env := sample_env None ∅ c_locale_to_utf8 in
  let p := entered {| version := true; print_appid := false;
                      arguments := Some ["a"; "b"] |} in
  ∃ p', g_application_run env p = Exited 0 p' ∧
        stdout p' = ("0.1" ++ LF)%string ∧ stderr p' = EmptyString ∧ home_uri p' = None.
Proof.
  intros env p. eexists.
  pose proof (version_flag_prints_and_exits env p eq_refl)
    as (_ & H2 & H3 & H4 & H5 & _).
  split_and!; [exact H2 | exact H3 | exact H4 | exact H5].
Defined.

End claims.

End LauncherProps.

(** * Further properties of the shell *)
Module ShellMore.
Import CogShell ShellProps.

Section handler_table.
Implicit Types (w : World) (scheme : string) (h c : positive).

Lemma with_request_handlers_same (p : CogShellPrivate) table :
  request_handlers p = Some table → with_request_handlers p (Some table) = p.
Proof. destruct p; cbn; by intros ->. Qed.

Lemma set_request_handler_table w scheme h :
  ∃ table', request_handlers (priv (cog_shell_set_request_handler w (Some scheme) (Some h)))
            = Some table' ∧
            (handler <$> table' !! scheme) = Some h ∧
            dom table' = {[scheme]} ∪ dom (default ∅ (request_handlers (priv w))) ∧
            ∀ scheme', scheme ≠ scheme' →
              table' !! scheme' = default ∅ (request_handlers (priv w)) !! scheme'.
Proof.
  unfold cog_shell_set_request_handler.
  destruct (default ∅ (request_handlers (priv w)) !! scheme) as [e|] eqn:He.
  - destruct (decide (handler e = h)) as [<-|Hne]; cbn.
    + eexists. split_and!; [done | by rewrite He | | done].
      symmetry. apply subseteq_union_1_L, singleton_subseteq_l.
      by apply elem_of_dom_2 with e.
    + eexists. split_and!; [done | by rewrite lookup_insert_eq | apply dom_insert_L |].
      intros scheme' Hs. by rewrite lookup_insert_ne.
  - cbn. eexists. split_and!; [done | by rewrite lookup_insert_eq | apply dom_insert_L |].
    intros scheme' Hs. by rewrite lookup_insert_ne.
Qed.

(** X1.  Whatever the table held, after [cog_shell_set_request_handler] the
    table exists and the entry of the scheme holds the handler passed. *)
Theorem set_request_handler_lookup w scheme h :
  let w' := cog_shell_set_request_handler w (Some scheme) (Some h) in
  is_Some (request_handlers (priv w')) ∧
  (handler <$> entry_of w' scheme) = Some h.
Proof.
  intros w'. destruct (set_request_handler_table w scheme h) as (t & Ht & Hh & _).
  subst w'. unfold entry_of. rewrite Ht. by eauto.
Qed.

(** X2.  [cog_shell_set_request_handler] leaves the entries of the other
    schemes, the name, the settings, the context and the view as they
    were. *)
Theorem set_request_handler_frame w scheme scheme' h :
  scheme ≠ scheme' →
  let w' := cog_shell_set_request_handler w (Some scheme) (Some h) in
  entry_of w' scheme' = entry_of w scheme' ∧
  cog_shell_get_name w' = cog_shell_get_name w ∧
  cog_shell_get_web_settings w' = cog_shell_get_web_settings w ∧
  cog_shell_get_web_context w' = cog_shell_get_web_context w ∧
  cog_shell_get_web_view w' = cog_shell_get_web_view w.
Proof.
  intros Hne w'.
  destruct (set_request_handler_priv w scheme h) as (Hc & Hs & Hn & Hv).
  split_and!; try done. by apply set_request_handler_other.
Qed.

Lemma set_request_handler_frame_witness :
  let w := cog_shell_set_request_handler (cog_shell_new sample_env (Some "cog"))
             (Some "about") (Some 10%positive) in
  let w' := cog_shell_set_request_handler w (Some "data") (Some 11%positive) in
  "data" ≠ "about" ∧
  entry_of w' "about" = Some {| handler := 10; registered := false |} ∧
  cog_shell_get_name w' = Some "cog".
Proof.
  intros w w'.
  assert (Hne : "data" ≠ "about") by discriminate.
  pose proof (set_request_handler_frame w "data" "about" 11 Hne) as (H1 & H2 & _).
  split_and!; [exact Hne | exact H1 | exact H2].
Defined.

(** X3.  No call removes a scheme: the schemes of the table after
    [cog_shell_set_request_handler] are those it had and the one passed. *)
Theorem set_request_handler_dom w scheme h :
  dom (default ∅ (request_handlers
                    (priv (cog_shell_set_request_handler w (Some scheme) (Some h)))))
  = {[scheme]} ∪ dom (default ∅ (request_handlers (priv w))).
Proof.
  destruct (set_request_handler_table w scheme h) as (t & Ht & _ & Hd & _).
  by rewrite Ht.
Qed.

(** X4.  Setting the handler a scheme already has changes nothing in the
    shell. *)
Theorem set_request_handler_same_handler w scheme e :
  entry_of w scheme = Some e →
  priv (cog_shell_set_request_handler w (Some scheme) (Some (handler e))) = priv w.
Proof.
  unfold entry_of, cog_shell_set_request_handler. intros He.
  destruct (request_handlers (priv w)) as [table|] eqn:Ht; [|discriminate He].
  cbn in *. rewrite He, decide_True by done. cbn.
  by apply with_request_handlers_same.
Qed.

Lemma set_request_handler_same_handler_witness :
  let w := cog_shell_set_request_handler (cog_shell_new sample_env (Some "cog"))
             (Some "about") (Some 10%positive) in
  entry_of w "about" = Some {| handler := 10; registered := false |} ∧
  priv (cog_shell_set_request_handler w (Some "about") (Some 10%positive)) = priv w.
Proof.
  intros w. split; [reflexivity|].
  exact (set_request_handler_same_handler w "about"
           {| handler := 10; registered := false |} eq_refl).
Defined.

(** X5.  A shell without a context keeps the handler it is given and does
    not call the engine. *)
Theorem set_request_handler_without_context w scheme h :
  web_context (priv w) = None →
  let w' := cog_shell_set_request_handler w (Some scheme) (Some h) in
  uri_scheme_calls w' = uri_scheme_calls w ∧
  (handler <$> entry_of w' scheme) = Some h.
Proof.
  intros Hc w'. split.
  - subst w'. unfold cog_shell_set_request_handler.
    destruct (default ∅ (request_handlers (priv w)) !! scheme) as [e|];
      [destruct (decide (handler e = h))|]; cbn;
      unfold request_handler_map_entry_register; by rewrite Hc.
  - destruct (set_request_handler_table w scheme h) as (t & Ht & Hh & _).
    subst w'. unfold entry_of. by rewrite Ht.
Qed.

Lemma set_request_handler_without_context_witness :
  let w := world (cog_shell_dispose (new_shell sample_env (Some "cog"))) in
  let w' := cog_shell_set_request_handler w (Some "about") (Some 10%positive) in
  web_context (priv w) = None ∧
  uri_scheme_calls w' = [] ∧ (handler <$> entry_of w' "about") = Some 10%positive.
Proof.
  intros w w'. split; [reflexivity|].
  exact (set_request_handler_without_context w "about" 10 eq_refl).
Defined.

(** X6.  One call of [cog_shell_set_request_handler] makes at most one call
    to the engine; a call is made only when scheme and handler are both there
    and the shell has a context, and it names that context and that scheme.
    With a NULL scheme or a NULL handler nothing at all changes. *)
Theorem set_request_handler_engine_calls w (s : option string) (oh : option positive) :
  let w' := cog_shell_set_request_handler w s oh in
  (uri_scheme_calls w' = uri_scheme_calls w ∨
   ∃ c scheme h, s = Some scheme ∧ oh = Some h ∧ web_context (priv w) = Some c ∧
                 uri_scheme_calls w' = uri_scheme_calls w ++ [(c, scheme)]) ∧
  (s = None ∨ oh = None → w' = w).
Proof.
  split.
  - destruct s as [scheme|], oh as [h|]; cbn; auto.
    destruct (default ∅ (request_handlers (priv w)) !! scheme) as [e|];
      [destruct (decide (handler e = h))|]; cbn;
      unfold request_handler_map_entry_register;
      destruct (web_context (priv w)) as [c|]; cbn; auto;
      try destruct (registered e); auto; right; by exists c, scheme, h.
  - apply set_request_handler_guard.
Qed.



End handler_table.

Section more_startup.
Implicit Types (w : World) (scheme : string) (h c : positive).

Lemma clear_entries_NoDup c (table : gmap string RequestHandlerMapEntry) :
  NoDup ((λ se : string * RequestHandlerMapEntry, (c, se.1)) <$>
         filter (λ se, registered se.2 = false) (map_to_list table)).
Proof.
  apply NoDup_fmap_2_strong.
  - intros [s1 e1] [s2 e2] [_ H1]%list_elem_of_filter [_ H2]%list_elem_of_filter.
    cbn. intros [= ->]. apply elem_of_map_to_list in H1, H2. congruence.
  - apply NoDup_filter, NoDup_map_to_list.
Qed.

Lemma clear_entries_elem c c' scheme (table : gmap string RequestHandlerMapEntry) :
  (c', scheme) ∈ ((λ se : string * RequestHandlerMapEntry, (c, se.1)) <$>
                  filter (λ se, registered se.2 = false) (map_to_list table))
  ↔ c' = c ∧ ∃ e, table !! scheme = Some e ∧ registered e = false.
Proof.
  rewrite list_elem_of_fmap. split.
  - intros ([s e] & [= -> ->] & [Hr Hin]%list_elem_of_filter).
    apply elem_of_map_to_list in Hin. eauto.
  - intros (-> & e & He & Hr). exists (scheme, e). split; [done|].
    apply list_elem_of_filter. split; [done|]. by apply elem_of_map_to_list.
Qed.

(** X8.  With a context, startup offers to it the schemes whose entry has
    its flag clear, each once and no other; this does not depend on the order
    in which the table is walked. *)
Theorem startup_offers_clear_entries w c table after :
  web_context (priv w) = Some c → request_handlers (priv w) = Some table →
  ∃ added,
    uri_scheme_calls (outcome_world (cog_shell_startup_base [] after w))
    = uri_scheme_calls w ++ added ∧
    NoDup added ∧
    ∀ c' scheme, (c', scheme) ∈ added ↔
                 c' = c ∧ ∃ e, table !! scheme = Some e ∧ registered e = false.
Proof.
  intros Hc Ht. rewrite startup_default_view. cbn [outcome_world uri_scheme_calls].
  unfold register_pending. rewrite Ht, Hc. cbn [uri_scheme_calls with_uri_scheme_calls].
  rewrite register_each_some. eexists. split_and!; [reflexivity | |].
  - apply clear_entries_NoDup.
  - intros c' scheme. apply clear_entries_elem.
Qed.

Lemma startup_offers_clear_entries_witness :
  let w := cog_shell_set_request_handler
             (cog_shell_set_request_handler (cog_shell_new sample_env (Some "cog"))
                (Some "about") (Some 10%positive))
             (Some "data") (Some 11%positive) in
  ∃ added,
    uri_scheme_calls (outcome_world (cog_shell_startup_base [] [] w))
    = uri_scheme_calls w ++ added ∧
    NoDup added ∧
    ∀ c' scheme, (c', scheme) ∈ added ↔
      c' = 2%positive ∧
      ∃ e, ({[ "about" := {| handler := 10; registered := false |};
               "data" := {| handler := 11; registered := false |} ]}
             : gmap string RequestHandlerMapEntry) !! scheme = Some e ∧
           registered e = false.
Proof.
  intros w.
  apply (startup_offers_clear_entries w 2 _ [] eq_refl).
  vm_compute. reflexivity.
Defined.

(** X9.  Without a context, startup makes no call to the engine, whatever
    the table holds. *)
Theorem startup_without_context w after :
  web_context (priv w) = None →
  uri_scheme_calls (outcome_world (cog_shell_startup_base [] after w))
  = uri_scheme_calls w.
Proof.
  intros Hc. rewrite startup_default_view. cbn [outcome_world uri_scheme_calls].
  unfold register_pending. destruct (request_handlers (priv w)); [|done].
  rewrite Hc. cbn. apply register_each_none.
Qed.

Lemma startup_without_context_witness :
  let w := cog_shell_set_request_handler
             (world (cog_shell_dispose (new_shell sample_env (Some "cog"))))
             (Some "about") (Some 10%positive) in
  web_context (priv w) = None ∧
  (handler <$> entry_of w "about") = Some 10%positive ∧
  uri_scheme_calls (outcome_world (cog_shell_startup_base [] [] w)) = [].
Proof.
  intros w. split_and!; [reflexivity | reflexivity |].
  exact (startup_without_context w [] eq_refl).
Defined.

(** X10.  Only the first handler of [create-view] runs: the handlers
    connected after the first one, and those connected to run after the class
    handler, have no influence on startup. *)
Theorem create_view_only_first_handler_runs w l rest after :
  cog_shell_startup_base (l :: rest) after w = cog_shell_startup_base [l] [] w ∧
  cog_shell_startup_base [] after w = cog_shell_startup_base [] [] w.
Proof.
  split.
  - destruct (l (register_pending w)) as [view w2] eqn:Hl.
    pose proof (startup_first_handler w l rest after view w2 Hl) as H1.
    pose proof (startup_first_handler w l [] [] view w2 Hl) as H2.
    cbv zeta in H1, H2. exact (eq_trans H1 (eq_sym H2)).
  - by rewrite !startup_default_view.
Qed.

(** X11.  When the handler that runs returns no view and the shell holds its
    settings or its context, startup stops at its assertion with the view of
    the shell NULL. *)
Theorem startup_null_view_aborts w l rest after w2 :
  l (register_pending w) = (None, w2) →
  is_Some (cog_shell_get_web_settings w2) ∨ is_Some (cog_shell_get_web_context w2) →
  ∃ w', cog_shell_startup_base (l :: rest) after w = Aborted w' ∧
        cog_shell_get_web_view w' = None.
Proof.
  intros Hl Hs. rewrite (startup_first_handler w l rest after None w2 Hl). cbn.
  unfold cog_shell_get_web_settings, cog_shell_get_web_context in Hs.
  destruct (web_settings (priv w2)) as [x|] eqn:Hx.
  - rewrite decide_False by done. eauto.
  - rewrite decide_True by done.
    destruct Hs as [[? [=]]|[y Hy]]. rewrite Hy, decide_False by done. eauto.
Qed.

Lemma startup_null_view_aborts_witness :
  let w := cog_shell_new sample_env (Some "cog") in
  is_Some (cog_shell_get_web_settings w) ∧
  ∃ w', cog_shell_startup_base [null_view_handler; own_view_handler 50] [] w
        = Aborted w' ∧ cog_shell_get_web_view w' = None.
Proof.
  intros w.
  assert (Hs : is_Some (cog_shell_get_web_settings w)) by (by eexists).
  split; [exact Hs|].
  exact (startup_null_view_aborts w null_view_handler [own_view_handler 50] [] w
           eq_refl (or_introl Hs)).
Defined.

(** X12.  Whether it returns or stops at an assertion, startup has by then
    stored the return value of the handler that ran as the view of the shell
    and notified [web-view] once; it has changed neither the name, nor the
    settings, nor the context, nor the handler table, nor the calls made to
    the engine since that handler returned. *)
Theorem startup_stores_view_and_notifies w l rest after view w2 :
  l (register_pending w) = (view, w2) →
  let w' := outcome_world (cog_shell_startup_base (l :: rest) after w) in
  cog_shell_get_web_view w' = view ∧
  notifications w' = notifications w2 ++ ["web-view"] ∧
  uri_scheme_calls w' = uri_scheme_calls w2 ∧
  cog_shell_get_name w' = cog_shell_get_name w2 ∧
  cog_shell_get_web_settings w' = cog_shell_get_web_settings w2 ∧
  cog_shell_get_web_context w' = cog_shell_get_web_context w2 ∧
  request_handlers (priv w') = request_handlers (priv w2).
Proof.
  intros Hl w'. subst w'.
  rewrite (startup_first_handler w l rest after view w2 Hl).
  repeat case_decide; cbn; done.
Qed.

Lemma startup_stores_view_and_notifies_witness :
  let w := cog_shell_new sample_env (Some "cog") in
  let v := {| view_id := 50; view_settings := Some 7%positive;
              view_context := Some 2%positive |} in
  let w' := outcome_world (cog_shell_startup_base [foreign_view_handler 50 7 2] [] w) in
  foreign_view_handler 50 7 2 (register_pending w) = (Some v, w) ∧
  cog_shell_get_web_view w' = Some v ∧ notifications w' = ["web-view"].
Proof.
  intros w v w'. split; [reflexivity|].
  pose proof (startup_stores_view_and_notifies w (foreign_view_handler 50 7 2) [] []
                (Some v) w eq_refl) as (H1 & H2 & _).
  split; [exact H1 | exact H2].
Defined.

End more_startup.

Section construction.
Implicit Types (env : Env) (s : Shell).

(** X13.  A new shell has exactly the name it was made with, whatever the
    program is called; its directories are built from the user directories
    and that name; it has its settings and its context, two different
    objects, no view, no handler table, and the engine has not been called. *)
Theorem cog_shell_new_fresh env (n : option string) :
  let w := cog_shell_new env n in
  cog_shell_get_name w = n ∧
  (cog_shell_get_web_context w ≫= λ c, website_data w !! c)
  = Some (g_build_filename env (until_null [Some (g_get_user_data_dir env); n; None]),
          g_build_filename env (until_null [Some (g_get_user_cache_dir env); n; None])) ∧
  is_Some (cog_shell_get_web_settings w) ∧
  is_Some (cog_shell_get_web_context w) ∧
  cog_shell_get_web_settings w ≠ cog_shell_get_web_context w ∧
  cog_shell_get_web_view w = None ∧
  request_handlers (priv w) = None ∧
  uri_scheme_calls w = [].
Proof.
  intros w. subst w.
  unfold cog_shell_get_name, cog_shell_get_web_context, cog_shell_get_web_settings,
    cog_shell_get_web_view, cog_shell_new, cog_shell_init.
  destruct (g_get_prgname env); cbn; rewrite lookup_insert_eq;
    split_and!; by eauto.
Qed.

(** X14.  Disposal leaves every member that an accessor returns NULL, keeps
    the record of the calls made to the engine, and disposing again changes
    nothing. *)
Theorem dispose_clears s :
  let s' := cog_shell_dispose s in
  cog_shell_get_name (world s') = None ∧
  cog_shell_get_web_settings (world s') = None ∧
  cog_shell_get_web_context (world s') = None ∧
  cog_shell_get_web_view (world s') = None ∧
  cog_shell_get_config_file s' = None ∧
  request_handlers (priv (world s')) = None ∧
  uri_scheme_calls (world s') = uri_scheme_calls (world s) ∧
  cog_shell_dispose s' = s'.
Proof. by split_and!. Qed.

(** X15.  [cog_shell_get_property] answers for the name, the settings, the
    context and the view, with what their accessors return; for every other
    identifier, those of [config-file] and [device-scale-factor] among them,
    it stores no value. *)
Theorem get_property_answers s (prop_id : N) :
  (is_Some (cog_shell_get_property s prop_id) ↔
   prop_id = PROP_NAME ∨ prop_id = PROP_WEB_SETTINGS ∨
   prop_id = PROP_WEB_CONTEXT ∨ prop_id = PROP_WEB_VIEW) ∧
  cog_shell_get_property s PROP_NAME = Some (GString (cog_shell_get_name (world s))) ∧
  cog_shell_get_property s PROP_WEB_SETTINGS
    = Some (GObject (cog_shell_get_web_settings (world s))) ∧
  cog_shell_get_property s PROP_WEB_CONTEXT
    = Some (GObject (cog_shell_get_web_context (world s))) ∧
  cog_shell_get_property s PROP_WEB_VIEW
    = Some (GView (cog_shell_get_web_view (world s))) ∧
  cog_shell_get_property s PROP_CONFIG_FILE = None ∧
  cog_shell_get_property s PROP_DEVICE_SCALE_FACTOR = None.
Proof.
  split_and!; try reflexivity.
  unfold PROP_NAME, PROP_WEB_SETTINGS, PROP_WEB_CONTEXT, PROP_WEB_VIEW.
  destruct prop_id as [|[[[]|[]|]|[[]|[]|]|]]; cbn; split;
    try (intros [? [=]]); try (intros [[=]|[[=]|[[=]|[=]]]]); eauto.
Qed.

(** X16.  A configuration file set through [cog_shell_set_property] is what
    [cog_shell_get_config_file] returns, and likewise the scale factor, but
    neither can be read back through [cog_shell_get_property]; a name set
    through it can.  None of the three touches the settings, the context, the
    view or the handler table. *)
Theorem set_property_read_back s (k : option positive) (d : Z) (n : option string) :
  let s1 := (cog_shell_set_property s PROP_CONFIG_FILE (GBoxed k)).1 in
  let s2 := (cog_shell_set_property s PROP_DEVICE_SCALE_FACTOR (GDouble d)).1 in
  let s3 := (cog_shell_set_property s PROP_NAME (GString n)).1 in
  (cog_shell_get_config_file s1 = k ∧
   cog_shell_get_property s1 PROP_CONFIG_FILE = None ∧ world s1 = world s) ∧
  (cog_shell_get_device_scale_factor s2 = d ∧
   cog_shell_get_property s2 PROP_DEVICE_SCALE_FACTOR = None ∧ world s2 = world s) ∧
  (cog_shell_get_property s3 PROP_NAME = Some (GString n) ∧
   rest s3 = rest s ∧
   cog_shell_get_web_settings (world s3) = cog_shell_get_web_settings (world s) ∧
   cog_shell_get_web_context (world s3) = cog_shell_get_web_context (world s) ∧
   cog_shell_get_web_view (world s3) = cog_shell_get_web_view (world s) ∧
   request_handlers (priv (world s3)) = request_handlers (priv (world s))).
Proof. by split_and!. Qed.

(** X17.  [cog_shell_set_property] writes for the name, the configuration
    file and the scale factor only; for any other identifier it warns and
    leaves the shell as it was. *)
Theorem set_property_writes (s : Shell) (prop_id : N) (value : GValue) :
  ((cog_shell_set_property s prop_id value).2 = false ↔
   prop_id = PROP_NAME ∨ prop_id = PROP_CONFIG_FILE ∨
   prop_id = PROP_DEVICE_SCALE_FACTOR) ∧
  ((cog_shell_set_property s prop_id value).2 = true →
   (cog_shell_set_property s prop_id value).1 = s).
Proof.
  unfold PROP_NAME, PROP_CONFIG_FILE, PROP_DEVICE_SCALE_FACTOR.
  destruct prop_id as [|[[[]|[]|]|[[]|[]|]|]]; cbn;
    (split; [split; [intros H; try done; auto 6
                    | intros [H|[H|H]]; done]
            | intros H; done]).
Qed.

End construction.

End ShellMore.

(** * Further properties of the launcher *)
Module LauncherMore.
Import Dinghy LauncherProps.

Section handler.
Implicit Types (env : Env) (p : Process) (a u : string).

(** The three ways the handler ends, with what each leaves behind. *)
Lemma handler_cases env p status p' :
  on_handle_local_options env p = Some (status, p') →
  (status = EXIT_SUCCESS ∧
   (version (s_options p) = true ∨ print_appid (s_options p) = true) ∧
   s_options p' = s_options p ∧ home_uri p' = home_uri p ∧ stderr p' = stderr p) ∨
  (status = EXIT_FAILURE ∧
   version (s_options p) = false ∧ print_appid (s_options p) = false ∧
   (∃ message, p' = g_printerr p (fmt_s (g_get_prgname env) ++ ": " ++ message))) ∨
  (status = (-1)%Z ∧
   version (s_options p) = false ∧ print_appid (s_options p) = false ∧
   (∃ uri, p' = dy_launcher_set_home_uri (clear_arguments p) uri)).
Proof.
  unfold on_handle_local_options.
  destruct (version (s_options p)) eqn:Hv.
  { intros [= <- <-]. left. split_and!; by auto. }
  destruct (print_appid (s_options p)) eqn:Hp.
  { intros [= <- <-]. left.
    destruct (g_application_get_application_id env); split_and!; by auto. }
  unfold select_uri.
  destruct (arguments (s_options p)) as [args|].
  - destruct (1 <? length args).
    + intros [= <- <-]. right; left. split_and!; try done. by eexists.
    + destruct (args !! 0) as [uri|]; [|done]. unfold load_uri.
      destruct (if _ && _ then _ else _) as [utf8|message]; intros [= <- <-].
      * right; right. split_and!; try done. by eexists.
      * right; left. split_and!; try done. by eexists.
  - destruct (g_getenv env "DINGHY_URL") as [uri|].
    + unfold load_uri.
      destruct (if _ && _ then _ else _) as [utf8|message]; intros [= <- <-].
      * right; right. split_and!; try done. by eexists.
      * right; left. split_and!; try done. by eexists.
    + intros [= <- <-]. right; left. split_and!; try done. by eexists.
Qed.

(** X18.  With [--print-appid] and without [--version], the handler prints
    the application identifier and a line feed when the application has one
    and nothing when it has none, returns [EXIT_SUCCESS], and the run ends
    before startup; no URL is looked for and the home URI is left alone. *)
Theorem print_appid_prints_and_exits env p :
  version (s_options p) = false → print_appid (s_options p) = true →
  let p' := match g_application_get_application_id env with
            | Some appid => g_print p (appid ++ LF)
            | None => p
            end in
  on_handle_local_options env p = Some (0%Z, p') ∧
  g_application_run env p = Exited 0 p' ∧
  home_uri p' = home_uri p ∧ stderr p' = stderr p ∧
  (g_application_get_application_id env = None → stdout p' = stdout p).
Proof.
  intros Hv Hp p'.
  assert (Hr : on_handle_local_options env p = Some (0%Z, p')).
  { unfold on_handle_local_options. by rewrite Hv, Hp. }
  split_and!; [exact Hr | | | |].
  - unfold g_application_run. by rewrite Hr.
  - subst p'. by destruct (g_application_get_application_id env).
  - subst p'. by destruct (g_application_get_application_id env).
  - subst p'. by intros ->.
Qed.

Lemma print_appid_prints_and_exits_witness :
  let env := sample_env None ∅ c_locale_to_utf8 in
  let p := entered {| version := false; print_appid := true; arguments := None |} in
  ∃ p', g_application_run env p = Exited 0 p' ∧
        stdout p' = ("com.igalia.Dinghy" ++ LF)%string ∧ home_uri p' = None.
Proof.
  intros env p. eexists.
  pose proof (print_appid_prints_and_exits env p eq_refl eq_refl) as (_ & H2 & H3 & _).
  split_and!; [exact H2 | reflexivity | exact H3].
Defined.

(** X19.  A value that names no existing native file and that
    [g_locale_to_utf8] rejects makes the handler write the program name, the
    value and the message of the conversion error to the standard error
    stream and return [EXIT_FAILURE]; the run ends before startup, the home
    URI is not set and the positional arguments are kept. *)
Theorem invalid_encoding_fails env p a message :
  version (s_options p) = false → print_appid (s_options p) = false →
  arguments (s_options p) = Some [a] ∨
  (arguments (s_options p) = None ∧ g_getenv env "DINGHY_URL" = Some a) →
  g_file_is_native (g_file_new_for_commandline_arg env a)
    && g_file_query_exists (g_file_new_for_commandline_arg env a) = false →
  g_locale_to_utf8 env a = inr message →
  let p' := g_printerr p (fmt_s (g_get_prgname env) ++ ": URI '" ++ a ++
                          "' is invalid UTF-8: " ++ message ++ LF) in
  on_handle_local_options env p = Some (EXIT_FAILURE, p') ∧
  g_application_run env p = Exited EXIT_FAILURE p' ∧
  home_uri p' = home_uri p ∧ s_options p' = s_options p ∧ stdout p' = stdout p.
Proof.
  intros Hv Hp Ha Hf Hc p'.
  assert (Hr : on_handle_local_options env p = Some (EXIT_FAILURE, p')).
  { rewrite (handler_loads_value env p a Hv Hp Ha).
    by rewrite load_uri_opaque, Hc. }
  split_and!; [exact Hr | | reflexivity ..].
  unfold g_application_run. by rewrite Hr.
Qed.

Lemma invalid_encoding_fails_witness :
  let env := sample_env None ∅ c_locale_to_utf8 in
  let p := entered (plain (Some [cafe_latin1])) in
  g_locale_to_utf8 env cafe_latin1 = inr "Invalid byte sequence in conversion input" ∧
  ∃ p', g_application_run env p = Exited EXIT_FAILURE p' ∧
        home_uri p' = None ∧ arguments (s_options p') = Some [cafe_latin1].
Proof.
  intros env p. split; [reflexivity|]. eexists.
  pose proof (invalid_encoding_fails env p cafe_latin1
                "Invalid byte sequence in conversion input"
                eq_refl eq_refl (or_introl eq_refl) eq_refl eq_refl)
    as (_ & H2 & H3 & H4 & _).
  split_and!; [exact H2 | exact H3 | by rewrite H4].
Defined.

(** X20.  Whenever the handler returns, its status is [EXIT_SUCCESS],
    [EXIT_FAILURE] or -1.  Only with -1 is the home URI set, and then the
    positional arguments are cleared and nothing was printed; otherwise the
    home URI and the options are as they were.  With [EXIT_FAILURE] nothing
    went to the standard output and the standard error stream received one
    message that starts with the program name and a colon; with
    [EXIT_SUCCESS] nothing went to the standard error stream. *)
Theorem handler_status_and_effects env p status p' :
  on_handle_local_options env p = Some (status, p') →
  (status = 0%Z ∨ status = 1%Z ∨ status = (-1)%Z) ∧
  (status ≠ (-1)%Z → home_uri p' = home_uri p ∧ s_options p' = s_options p) ∧
  (status = (-1)%Z →
     is_Some (home_uri p') ∧ arguments (s_options p') = None ∧
     stdout p' = stdout p ∧ stderr p' = stderr p) ∧
  (status = 1%Z →
     stdout p' = stdout p ∧
     ∃ message,
       stderr p' = (stderr p ++ fmt_s (g_get_prgname env) ++ ": " ++ message)%string) ∧
  (status = 0%Z → stderr p' = stderr p).
Proof.
  intros H. apply handler_cases in H.
  destruct H as [(-> & _ & Ho & Hh & He)
               | [(-> & _ & _ & message & ->) | (-> & _ & _ & uri & ->)]];
    unfold EXIT_SUCCESS, EXIT_FAILURE; split_and!; try done; by eauto.
Qed.

Lemma handler_status_and_effects_witness :
  let env := sample_env None ∅ c_locale_to_utf8 in
  let p := entered (plain None) in
  ∃ p', on_handle_local_options env p = Some (1%Z, p') ∧
        home_uri p' = None ∧
        ∃ message, stderr p' = (EmptyString ++ "dinghy" ++ ": " ++ message)%string.
Proof.
  intros env p. eexists. split; [reflexivity|].
  pose proof (handler_status_and_effects env p 1 _ eq_refl)
    as (_ & H2 & _ & H4 & _).
  split; [exact (proj1 (H2 ltac:(discriminate))) | exact (proj2 (H4 eq_refl))].
Defined.

(** X21.  The handler goes on with a NULL [uri] in one case only: neither
    flag is set and the array of positional arguments is there but empty.  In
    every other case it returns. *)
Theorem handler_undefined_iff_empty_array env p :
  on_handle_local_options env p = None ↔
  version (s_options p) = false ∧ print_appid (s_options p) = false ∧
  arguments (s_options p) = Some [].
Proof.
  unfold on_handle_local_options, select_uri. split.
  - destruct (version (s_options p)); [done|].
    destruct (print_appid (s_options p)); [done|].
    destruct (arguments (s_options p)) as [[|a [|b args]]|]; cbn; try done.
    by destruct (g_getenv env "DINGHY_URL").
  - by intros (-> & -> & ->).
Qed.

(** X22.  The run goes on to startup only when the home URI has been set,
    and then neither [--version] nor [--print-appid] was given; when it ends
    at the handler its exit status is 0 or 1 and the home URI is as it
    was. *)
Theorem startup_proceeds_only_with_home_uri env p :
  (∀ p', g_application_run env p = StartupProceeds p' →
         is_Some (home_uri p') ∧
         version (s_options p) = false ∧ print_appid (s_options p) = false) ∧
  (∀ status p', g_application_run env p = Exited status p' →
                (status = 0%Z ∨ status = 1%Z) ∧ home_uri p' = home_uri p).
Proof.
  unfold g_application_run.
  destruct (on_handle_local_options env p) as [[status p1]|] eqn:Hr; [|done].
  apply handler_cases in Hr.
  destruct Hr as [(-> & _ & Ho & Hh & He)
                | [(-> & _ & _ & message & ->) | (-> & Hv & Hp & uri & ->)]];
    cbn; split; intros; simplify_eq; by eauto.
Qed.

Lemma startup_proceeds_only_with_home_uri_witness :
  let env := sample_env (Some "https://example.org") ∅ c_locale_to_utf8 in
  let p := entered (plain None) in
  let p' := dy_launcher_set_home_uri (clear_arguments p) "https://example.org" in
  g_application_run env p = StartupProceeds p' ∧ is_Some (home_uri p').
Proof.
  intros env p p'. split; [reflexivity|].
  exact (proj1 (proj1 (startup_proceeds_only_with_home_uri env p) p' eq_refl)).
Defined.

(** X23.  The handler uses [g_getenv] for [DINGHY_URL] alone, and not at all
    when the array of positional arguments is there: two environments with
    the same version string, program name, application identifier, file
    lookup and locale conversion give the same result as soon as positional
    arguments were given or the two agree on [DINGHY_URL]. *)
Theorem arguments_shadow_environment env env' p :
  DY_VERSION_STRING env' = DY_VERSION_STRING env →
  g_get_prgname env' = g_get_prgname env →
  g_application_get_application_id env' = g_application_get_application_id env →
  g_file_new_for_commandline_arg env' = g_file_new_for_commandline_arg env →
  g_locale_to_utf8 env' = g_locale_to_utf8 env →
  arguments (s_options p) ≠ None ∨
  g_getenv env' "DINGHY_URL" = g_getenv env "DINGHY_URL" →
  on_handle_local_options env' p = on_handle_local_options env p.
Proof.
  intros Hver Hprg Hid Hfile Hconv Hargs.
  unfold on_handle_local_options, select_uri, load_uri.
  rewrite Hver, Hprg, Hid, Hfile, Hconv.
  destruct (version (s_options p)); [done|].
  destruct (print_appid (s_options p)); [done|].
  destruct (arguments (s_options p)) as [args|]; [done|].
  destruct Hargs as [? | ->]; done.
Qed.

Lemma arguments_shadow_environment_witness :
  let p := entered (plain (Some ["https://a.example"])) in
  on_handle_local_options (sample_env (Some "https://b.example") ∅ c_locale_to_utf8) p
  = on_handle_local_options (sample_env None ∅ c_locale_to_utf8) p.
Proof.
  intros p.
  apply (arguments_shadow_environment (sample_env None ∅ c_locale_to_utf8)
           (sample_env (Some "https://b.example") ∅ c_locale_to_utf8) p
           eq_refl eq_refl eq_refl eq_refl eq_refl).
  left. discriminate.
Defined.

End handler.

End LauncherMore.
